(** * objdump_to_bindump: the line transcoder of [objdump_to_bindump.cpp]

    A shallow embedding of the program and the properties of its
    specification.  [std::string] is [string], [size_t] is [Z] with its
    64-bit wrap-around written out, the two faults the string library can
    raise ([operator[]] beyond the end, [substr] beyond the end) are an
    error type, the file system is a function from names to contents. *)

From Stdlib Require Import ZArith Bool List Ascii String Lia.
From Equations Require Import Equations.
Import ListNotations.

Local Open Scope string_scope.
Local Open Scope Z_scope.

(** ** Characters *)

Definition TAB : ascii := "009"%char.
Definition NL : ascii := "010"%char.
Definition tab : string := String TAB "".
Definition nl : string := String NL "".

Definition code (c : ascii) : Z := Z.of_N (N_of_ascii c).

(** [isspace] of <cctype> in the "C" locale: space, and the control
    characters \t \n \v \f \r; no byte from 128 on is white space. *)
Definition isspace (c : ascii) : bool :=
  (code c =? 32) || ((9 <=? code c) && (code c <=? 13)).

(** The value of one character read as a hexadecimal numeral. *)
Definition hex_digit (c : ascii) : option Z :=
  let n := code c in
  if (48 <=? n) && (n <=? 57) then Some (n - 48)
  else if (97 <=? n) && (n <=? 102) then Some (n - 87)
  else if (65 <=? n) && (n <=? 70) then Some (n - 55)
  else None.

(** ** [size_t] and [std::string] *)

Definition SIZE_BITS : Z := 64.
Definition wrap (z : Z) : Z := z mod 2 ^ SIZE_BITS.
Definition npos : Z := 2 ^ SIZE_BITS - 1.

Definition size (s : string) : Z := Z.of_nat (String.length s).

Fixpoint take (n : nat) (s : string) : string :=
  match n, s with
  | S k, String c r => String c (take k r)
  | _, _ => ""
  end.

Fixpoint drop (n : nat) (s : string) : string :=
  match n, s with
  | S k, String _ r => drop k r
  | _, _ => s
  end.

Fixpoint first_index (c : ascii) (s : string) : option nat :=
  match s with
  | "" => None
  | String a r =>
      if Ascii.eqb a c then Some O
      else option_map S (first_index c r)
  end.

(** [s.find(c, pos)]: the index of the first [c] at or after [pos], or
    [npos]. *)
Definition find (s : string) (c : ascii) (pos : Z) : Z :=
  if size s <? pos then npos
  else match first_index c (drop (Z.to_nat pos) s) with
       | Some k => pos + Z.of_nat k
       | None => npos
       end.

Inductive fault : Type :=
| OutOfBounds   (* operator[] past size(): undefined behaviour *)
| OutOfRange.   (* substr with pos > size(): std::out_of_range *)

Inductive result (A : Type) : Type :=
| Ok (a : A)
| Fault (f : fault).
Arguments Ok {A} a.
Arguments Fault {A} f.

Definition bind {A B} (r : result A) (k : A -> result B) : result B :=
  match r with
  | Ok a => k a
  | Fault f => Fault f
  end.

Notation "x <- r ;; k" := (bind r (fun x => k))
  (at level 61, r at next level, right associativity).

(** [s[i]]: the character at [i], the terminating NUL at [size()], no
    defined value beyond. *)
Definition at_ (s : string) (i : Z) : result ascii :=
  if i <? size s then
    match String.get (Z.to_nat i) s with
    | Some c => Ok c
    | None => Fault OutOfBounds
    end
  else if i =? size s then Ok zero
  else Fault OutOfBounds.

(** [s.substr(pos, n)]: at most [n] characters from [pos]. *)
Definition substr (s : string) (pos n : Z) : result string :=
  if size s <? pos then Fault OutOfRange
  else Ok (take (Z.to_nat (Z.min n (size s - pos))) (drop (Z.to_nat pos) s)).

(** ** The transcoding loop (lines 122-144) *)

(** [os << value % 2] prints an [int]. *)
Definition show_bit (z : Z) : string :=
  if z =? 0 then "0" else if z =? 1 then "1" else "-1".

(** [ss << std::hex << c; ss >> value]: the one-character stream parsed
    in base 16.  When the character is not a hexadecimal digit the
    extraction fails and stores 0 in [value]. *)
Definition extract_hex (c : ascii) : Z :=
  match hex_digit c with
  | Some v => v
  | None => 0
  end.

(** The loop [for (i = 0; i < 4; i++) { os << value % 2; value /= 2; }]
    on the pair (value, os). *)
Fixpoint bits_loop (n : nat) (value : Z) (os : string) : string :=
  match n with
  | O => os
  | S k => bits_loop k (Z.quot value 2) (os ++ show_bit (Z.rem value 2))
  end.

Fixpoint rev_string (s : string) : string :=
  match s with
  | "" => ""
  | String c r => rev_string r ++ String c ""
  end.

(** What one non-space character adds to [bin_part] (lines 127-136). *)
Definition nibble (c : ascii) : string :=
  rev_string (bits_loop 4 (extract_hex c) "").

Record scan : Type := mkScan { cur_pos : Z; bin_part : string }.

(** The test of line 126 and the two branches it selects. *)
Definition cell (hex_part : string) (p : Z) : string :=
  if p <? size hex_part then
    match String.get (Z.to_nat p) hex_part with
    | Some c => if isspace c then "    " else nibble c
    | None => "    "
    end
  else "    ".

(** One round of the inner loop, with its [cur_pos++]. *)
Definition char_step (hex_part : string) (st : scan) : scan :=
  mkScan (wrap (cur_pos st + 1)) (bin_part st ++ cell hex_part (cur_pos st)).

(** One round of the outer loop: two characters, the separator, and the
    [cur_pos++] that steps over the blank between two tokens. *)
Definition token_step (hex_part : string) (st : scan) : scan :=
  let st2 := char_step hex_part (char_step hex_part st) in
  mkScan (wrap (cur_pos st2 + 1)) (bin_part st2 ++ " ").

Fixpoint repeat_step (n : nat) (f : scan -> scan) (st : scan) : scan :=
  match n with
  | O => st
  | S k => repeat_step k f (f st)
  end.

Definition TOKENS : nat := 7.

Definition transcode (hex_part : string) : string :=
  bin_part (repeat_step TOKENS (token_step hex_part) (mkScan 0 "")).

(** ** One round of the reading loop (lines 108-148) *)

(** The condition of line 109, with the short cut of [||]. *)
Definition plain_test (line : string) (pos : Z) : result bool :=
  if pos =? npos then Ok true
  else c <- at_ line (wrap (pos - 1)) ;; Ok (negb (Ascii.eqb c ":")).

(** What one line adds to standard output. *)
Definition line_body (full_output : bool) (line : string) : result string :=
  let pos := find line TAB 0 in
  plain <- plain_test line pos ;;
  if plain : bool then Ok (if full_output then line ++ nl else "")
  else
    let pos := wrap (pos + 1) in
    header <- (if full_output then substr line 0 pos else Ok "") ;;
    let end_pos := find line TAB pos in
    let end_pos := if end_pos =? npos then wrap (size line - 1) else end_pos in
    hex_part <- substr line pos (wrap (end_pos - pos + 1)) ;;
    let bin_part := transcode hex_part in
    rest <- (if full_output then substr line end_pos npos else Ok "") ;;
    Ok (header ++ bin_part ++ rest ++ nl).

(** ** The file (lines 92-153) *)

(** [getline(fin, line)] on the unread part of the stream: the line
    without its newline, and what is left to read. *)
Fixpoint getline (fin : string) : string * string :=
  match fin with
  | "" => ("", "")
  | String c r =>
      if Ascii.eqb c NL then ("", r)
      else let (line, rest) := getline r in (String c line, rest)
  end.

(** [while (getline(fin, line)) { ... }]: the extraction fails, and the
    loop ends, when nothing is left to read. *)
Equations? read_loop (full_output : bool) (fin : string) : result string
  by wf (String.length fin) lt :=
  read_loop full_output "" := Ok "";
  read_loop full_output (String c r) :=
    out <- line_body full_output (fst (getline (String c r))) ;;
    more <- read_loop full_output (snd (getline (String c r))) ;;
    Ok (out ++ more).
Proof.
  clear read_loop. revert c.
  induction r as [|a r IH]; intros c; simpl.
  - destruct (Ascii.eqb c NL); simpl; lia.
  - destruct (Ascii.eqb c NL); simpl; [lia|].
    specialize (IH a). simpl in IH.
    destruct (Ascii.eqb a NL); simpl in *; [lia|].
    destruct (getline r); simpl in *; lia.
Qed.

Record run : Type := mkRun { stdout : string; stderr : string; exit_code : Z }.

Definition filesystem : Type := string -> option string.

Definition process_objdump_file (fs : filesystem) (filename : string)
    (full_output : bool) : result run :=
  match fs filename with
  | None =>
      Ok (mkRun "" ("Failed to open " ++ filename ++ " for input." ++ nl) 1)
  | Some fin =>
      out <- read_loop full_output fin ;; Ok (mkRun out "" 0)
  end.

(** ** The command line (lines 34-81) *)

Definition unlines (ls : list string) : string :=
  fold_right (fun l acc => l ++ nl ++ acc) "" ls.

Definition usage_text : string :=
  unlines
    ["Usage: ";
     "     objdump_to_hexdump [-b] objdump_output_file";
     "      ";
     "     Options: ";
     "         -b      Produce only the binary output (remove other ";
     "                 information from the objdump output)";
     "         ";
     "     Note:";
     "         Use with the `-b` flag to strip everything except the binary";
     "         output.  All other data from the original objdump_output_file";
     "         is ignored.";
     "";
     ""].

(** [std::cout << msg << msg != "" ? ... : ...] parses as
    [((std::cout << msg) << msg) != "" ? ... : ...]: the message goes out
    twice and the conditional is discarded. *)
Definition usage (msg : string) : run :=
  mkRun (msg ++ msg ++ usage_text) "" (if String.eqb msg "" then 0 else 1).

Definition main (fs : filesystem) (argv : list string) : result run :=
  let argc := Z.of_nat (List.length argv) in
  if argc <? 2 then Ok (usage "")
  else
    let token := nth 1 argv "" in
    let dash_b := String.eqb token "-b" in
    let full_output := negb dash_b in
    let i := if dash_b then 2 else 1 in
    if negb dash_b && (2 <? argc) then Ok (usage ("Unknown option: " ++ token))
    else if i <? argc
    then process_objdump_file fs (nth (Z.to_nat i) argv "") full_output
    else Ok (usage "Missing objdump_output_file.").

(** ** What the specification calls things *)

Definition bit_char (v i : Z) : ascii :=
  if Z.testbit v i then "1"%char else "0"%char.

(** The four binary digits of a nibble, most significant first. *)
Definition msb_first (v : Z) : string :=
  String (bit_char v 3) (String (bit_char v 2)
    (String (bit_char v 1) (String (bit_char v 0) ""))).

(** The four binary digits of a nibble, least significant first. *)
Definition lsb_first (v : Z) : string :=
  String (bit_char v 0) (String (bit_char v 1)
    (String (bit_char v 2) (String (bit_char v 3) ""))).

(** The eight binary digits of a byte, most significant first. *)
Definition byte_bits (v : Z) : string :=
  msb_first (Z.shiftr v 4) ++ msb_first (Z.land v 15).

Definition blank4 : string := "    ".
Definition blank8 : string := "        ".

(** The 8 characters the token at slot [k] turns into: the field is read
    at [3k] and [3k+1], the character at [3k+2] is stepped over. *)
Definition group (hex_part : string) (k : Z) : string :=
  cell hex_part (3 * k) ++ cell hex_part (3 * k + 1).

Definition slots : list Z := [0; 1; 2; 3; 4; 5; 6].

Definition layout (hex_part : string) : string :=
  fold_right (fun k acc => group hex_part k ++ " " ++ acc) "" slots.

(** The rendering cut back into columns: group [k] is the 8 characters
    from [9k], its separator the character at [9k+8]. *)
Definition nth_group (rendering : string) (k : Z) : string :=
  take 8 (drop (Z.to_nat (9 * k)) rendering).

Definition nth_separator (rendering : string) (k : Z) : option ascii :=
  String.get (Z.to_nat (9 * k + 8)) rendering.

Fixpoint all_chars (p : ascii -> bool) (s : string) : bool :=
  match s with
  | "" => true
  | String c r => p c && all_chars p r
  end.

Definition bin_or_space (c : ascii) : bool :=
  Ascii.eqb c "0" || Ascii.eqb c "1" || Ascii.eqb c " ".

(** The rendering the specification describes: the leading character of
    each slot alone is converted, 4 characters and a separator per slot. *)
Definition leading_only (hex_part : string) : string :=
  fold_right (fun k acc => cell hex_part (3 * k) ++ " " ++ acc) "" slots.

(** The lines of the classifier of the specification: a tab, and a colon
    right before the first one. *)
Definition first_tab (line : string) : option nat := first_index TAB line.

Definition colon_before (line : string) (k : nat) : bool :=
  match k with
  | O => false
  | S j => match String.get j line with
           | Some c => Ascii.eqb c ":"
           | None => false
           end
  end.

Definition instruction_line (line : string) : bool :=
  match first_tab line with
  | Some k => colon_before line k
  | None => false
  end.

Definition plain_line (line : string) : bool := negb (instruction_line line).

(** The rendering as the implicit claim words it: every position of a
    slot gives its own nibble, or four blanks. *)
Definition nibble_or_blank (hex_part : string) (p : nat) : string :=
  match String.get p hex_part with
  | Some c => if isspace c then blank4 else msb_first (extract_hex c)
  | None => blank4
  end.

Definition byte_columns (hex_part : string) : string :=
  fold_right
    (fun k acc =>
       nibble_or_blank hex_part (3 * k) ++
       nibble_or_blank hex_part (3 * k + 1) ++ " " ++ acc)
    "" (seq 0 TOKENS).

(** The three parts of an instruction line whose first tab is at index
    [k], in the words of the specification. *)
Definition header (line : string) (k : nat) : string := take (S k) line.

Definition second_tab (line : string) (k : nat) : option nat :=
  option_map (fun m => (S k + m)%nat) (first_index TAB (drop (S k) line)).

Definition byte_field (line : string) (k : nat) : string :=
  match second_tab line k with
  | Some e => take (S e - S k) (drop (S k) line)
  | None => drop (S k) line
  end.

Definition trailer (line : string) (k : nat) : string :=
  match second_tab line k with
  | Some e => drop e line
  | None => ""
  end.

(** What the program prints after the rendering in full-output mode: the
    line from [end_pos] on. *)
Definition printed_rest (line : string) (k : nat) : string :=
  match second_tab line k with
  | Some e => drop e line
  | None => drop (String.length line - 1) line
  end.

Definition tab_first (line : string) : bool :=
  match first_tab line with
  | Some O => true
  | _ => false
  end.

(** The lines the reading loop sees in a file. *)
Equations? file_lines (fin : string) : list string
  by wf (String.length fin) lt :=
  file_lines "" := [];
  file_lines (String c r) :=
    fst (getline (String c r)) :: file_lines (snd (getline (String c r))).
Proof.
  clear file_lines. revert c.
  induction r as [|a r IH]; intros c; simpl.
  - destruct (Ascii.eqb c NL); simpl; lia.
  - destruct (Ascii.eqb c NL); simpl; [lia|].
    specialize (IH a). simpl in IH.
    destruct (Ascii.eqb a NL); simpl in *; [lia|].
    destruct (getline r); simpl in *; lia.
Qed.

Fixpoint last_char (s : string) : option ascii :=
  match s with
  | "" => None
  | String c r =>
      match r with
      | "" => Some c
      | String _ _ => last_char r
      end
  end.

(** A file whose last line, if any, is closed by a newline. *)
Definition complete (content : string) : bool :=
  match last_char content with
  | Some c => Ascii.eqb c NL
  | None => true
  end.

(** The rounds of the reading loop over the lines of a file, one after
    the other. *)
Fixpoint run_lines (full_output : bool) (ls : list string) : result string :=
  match ls with
  | [] => Ok ""
  | l :: rest =>
      out <- line_body full_output l ;;
      more <- run_lines full_output rest ;;
      Ok (out ++ more)
  end.

(** What a line that does not start with a tab adds to standard output. *)
Definition line_output (full_output : bool) (line : string) : string :=
  if instruction_line line then
    match first_tab line with
    | Some k =>
        (if full_output then header line k else "") ++
        transcode (byte_field line k) ++
        (if full_output then printed_rest line k else "") ++ nl
    | None => ""
    end
  else if full_output then line ++ nl else "".

(** A string of binary digits read back as a number, most significant
    digit first. *)
Fixpoint read_binary_from (acc : Z) (s : string) : Z :=
  match s with
  | "" => acc
  | String c r =>
      read_binary_from (2 * acc + (if Ascii.eqb c "1" then 1 else 0)) r
  end.

Definition read_binary (s : string) : Z := read_binary_from 0 s.

(** Two byte fields that agree at the two token positions of each of the
    seven slots. *)
Definition same_tokens (h1 h2 : string) : Prop :=
  Forall (fun k =>
            String.get (3 * k) h1 = String.get (3 * k) h2 /\
            String.get (3 * k + 1) h1 = String.get (3 * k + 1) h2)
         (seq 0 TOKENS).

(** What the lines of a file add to standard output, in order. *)
Definition outputs (full_output : bool) (ls : list string) : string :=
  fold_right (fun l acc => line_output full_output l ++ acc) "" ls.

(** ** Strings *)

Lemma length_app a b :
  String.length (a ++ b) = (String.length a + String.length b)%nat.
Proof. induction a; simpl; congruence. Qed.

Lemma app_assoc a b c : (a ++ b) ++ c = a ++ b ++ c.
Proof. induction a; simpl; congruence. Qed.

Lemma app_nil_r a : a ++ "" = a.
Proof. induction a; simpl; congruence. Qed.

Lemma take_drop n s : take n s ++ drop n s = s.
Proof.
  revert s; induction n as [|n IH]; intros [|c r]; simpl; try reflexivity.
  now rewrite IH.
Qed.

Lemma take_app a b : take (String.length a) (a ++ b) = a.
Proof. induction a; simpl; [now destruct b | congruence]. Qed.

Lemma take_all n s : (String.length s <= n)%nat -> take n s = s.
Proof.
  revert s; induction n as [|n IH]; intros [|c r]; simpl; intros H;
    try reflexivity; try lia.
  rewrite IH by lia. reflexivity.
Qed.

Lemma length_drop n s :
  String.length (drop n s) = (String.length s - n)%nat.
Proof.
  revert s; induction n as [|n IH]; intros [|c r]; simpl; auto.
Qed.

Lemma get_app_r a b n :
  String.get (String.length a + n) (a ++ b) = String.get n b.
Proof. induction a; simpl; auto. Qed.

Lemma get_none n s : (String.length s <= n)%nat -> String.get n s = None.
Proof.
  revert n; induction s as [|c s IH]; simpl; intros n H; [reflexivity|].
  destruct n; [lia | apply IH; lia].
Qed.

Lemma get_some n s :
  (n < String.length s)%nat -> exists c, String.get n s = Some c.
Proof.
  revert n; induction s as [|c s IH]; simpl; intros n H; [lia|].
  destruct n; [eauto | apply IH; lia].
Qed.

Lemma all_chars_app p a b :
  all_chars p (a ++ b) = all_chars p a && all_chars p b.
Proof.
  induction a; simpl; [reflexivity|]. rewrite IHa. now rewrite andb_assoc.
Qed.

Lemma size_nonneg s : 0 <= size s.
Proof. unfold size; lia. Qed.

(** ** The transcoding loop *)

Lemma hex_digit_range c v : hex_digit c = Some v -> 0 <= v < 16.
Proof.
  unfold hex_digit. intros H.
  destruct ((48 <=? code c) && (code c <=? 57)) eqn:E1;
    [|destruct ((97 <=? code c) && (code c <=? 102)) eqn:E2;
      [|destruct ((65 <=? code c) && (code c <=? 70)) eqn:E3]];
    try discriminate; injection H as <-; lia.
Qed.

Lemma hex_digit_not_space c v : hex_digit c = Some v -> isspace c = false.
Proof.
  unfold hex_digit, isspace. intros H.
  destruct ((48 <=? code c) && (code c <=? 57)) eqn:E1;
    [|destruct ((97 <=? code c) && (code c <=? 102)) eqn:E2;
      [|destruct ((65 <=? code c) && (code c <=? 70)) eqn:E3]];
    try discriminate; lia.
Qed.

Lemma extract_hex_range c : 0 <= extract_hex c < 16.
Proof.
  unfold extract_hex. destruct (hex_digit c) eqn:E; [|lia].
  eapply hex_digit_range; eauto.
Qed.

Lemma nibble_cases v :
  0 <= v < 16 ->
  In v [0; 1; 2; 3; 4; 5; 6; 7; 8; 9; 10; 11; 12; 13; 14; 15].
Proof. intros H. simpl. lia. Qed.

Ltac by_nibble v H :=
  let HI := fresh in
  pose proof (nibble_cases v H) as HI; simpl in HI;
  repeat (destruct HI as [<- | HI]; [vm_compute; repeat split; congruence|]);
  contradiction.

Lemma bits_loop_lsb v : 0 <= v < 16 -> bits_loop 4 v "" = lsb_first v.
Proof. intros H. by_nibble v H. Qed.

Lemma rev_bits_msb v : 0 <= v < 16 -> rev_string (bits_loop 4 v "") = msb_first v.
Proof. intros H. by_nibble v H. Qed.

Lemma msb_first_length v : String.length (msb_first v) = 4%nat.
Proof. reflexivity. Qed.

Lemma msb_first_bin v : all_chars bin_or_space (msb_first v) = true.
Proof.
  unfold msb_first, bit_char.
  generalize (Z.testbit v 3), (Z.testbit v 2), (Z.testbit v 1), (Z.testbit v 0).
  intros [] [] [] []; reflexivity.
Qed.

Lemma nibble_msb c : nibble c = msb_first (extract_hex c).
Proof. apply rev_bits_msb, extract_hex_range. Qed.

Lemma byte_bits_nibbles a b :
  0 <= a < 16 -> 0 <= b < 16 ->
  byte_bits (16 * a + b) = msb_first a ++ msb_first b.
Proof.
  intros Ha Hb. unfold byte_bits.
  replace (Z.shiftr (16 * a + b) 4) with a.
  2:{ rewrite Z.shiftr_div_pow2 by lia. change (2 ^ 4) with 16.
      apply Z.div_unique with (r := b); lia. }
  replace (Z.land (16 * a + b) 15) with b; [reflexivity|].
  change 15 with (Z.ones 4). rewrite Z.land_ones by lia. change (2 ^ 4) with 16.
  apply Z.mod_unique with (q := a); lia.
Qed.

(** What line 126 and its branches do at one position of the field. *)
Lemma cell_cases h p :
  0 <= p ->
  cell h p =
    match String.get (Z.to_nat p) h with
    | Some c => if isspace c then blank4 else msb_first (extract_hex c)
    | None => blank4
    end.
Proof.
  intros Hp. unfold cell.
  destruct (Z.ltb_spec p (size h)) as [H|H].
  - destruct (String.get (Z.to_nat p) h); [|reflexivity].
    now rewrite nibble_msb.
  - rewrite get_none; [reflexivity | unfold size in H; lia].
Qed.

Lemma cell_absent h p : size h <= p -> cell h p = blank4.
Proof.
  intros H. unfold cell.
  destruct (Z.ltb_spec p (size h)); [lia | reflexivity].
Qed.

Lemma cell_length h p : String.length (cell h p) = 4%nat.
Proof.
  unfold cell. destruct (p <? size h); [|reflexivity].
  destruct (String.get (Z.to_nat p) h) as [c|]; [|reflexivity].
  destruct (isspace c); [reflexivity|].
  rewrite nibble_msb. apply msb_first_length.
Qed.

Lemma cell_bin h p : all_chars bin_or_space (cell h p) = true.
Proof.
  unfold cell. destruct (p <? size h); [|reflexivity].
  destruct (String.get (Z.to_nat p) h) as [c|]; [|reflexivity].
  destruct (isspace c); [reflexivity|].
  rewrite nibble_msb. apply msb_first_bin.
Qed.

Lemma group_length h k : String.length (group h k) = 8%nat.
Proof. unfold group. now rewrite length_app, !cell_length. Qed.

Lemma wrap_small z : 0 <= z < 18446744073709551616 -> wrap z = z.
Proof. intros H. unfold wrap. now apply Z.mod_small. Qed.

Lemma token_step_spec h p b :
  0 <= p < 100 ->
  token_step h (mkScan p b) =
  mkScan (p + 3) (b ++ cell h p ++ cell h (p + 1) ++ " ").
Proof.
  intros Hp. unfold token_step, char_step. cbn [cur_pos bin_part].
  rewrite (wrap_small (p + 1)) by lia.
  rewrite (wrap_small (p + 1 + 1)) by lia.
  rewrite (wrap_small (p + 1 + 1 + 1)) by lia.
  f_equal; [lia|]. now rewrite !app_assoc.
Qed.

(** The state of the scan after the seven rounds of the outer loop. *)
Lemma transcode_layout h : transcode h = layout h.
Proof.
  unfold transcode, TOKENS, repeat_step.
  rewrite !token_step_spec by lia. simpl.
  unfold layout, slots, group. simpl.
  now rewrite !app_assoc.
Qed.

Lemma transcode_length h : String.length (transcode h) = 63%nat.
Proof.
  rewrite transcode_layout. unfold layout, slots. cbn [fold_right].
  repeat (rewrite length_app, group_length; cbn [String.length append]).
  reflexivity.
Qed.

Lemma drop_slot g rest n :
  String.length g = 8%nat ->
  drop (S (S (S (S (S (S (S (S (S n))))))))) (g ++ " " ++ rest) = drop n rest.
Proof.
  intros H.
  change (S (S (S (S (S (S (S (S (S n))))))))) with (8 + S n)%nat.
  rewrite <- H. clear H. induction g; simpl; auto.
Qed.

Lemma take_slot g rest : String.length g = 8%nat -> take 8 (g ++ rest) = g.
Proof. intros H. rewrite <- H. apply take_app. Qed.

Lemma get_slot_skip g rest n :
  String.length g = 8%nat ->
  String.get (S (S (S (S (S (S (S (S (S n))))))))) (g ++ " " ++ rest)
  = String.get n rest.
Proof.
  intros H.
  change (S (S (S (S (S (S (S (S (S n))))))))) with (8 + S n)%nat.
  rewrite <- H, get_app_r. reflexivity.
Qed.

Lemma get_slot_sep g rest :
  String.length g = 8%nat -> String.get 8 (g ++ " " ++ rest) = Some " "%char.
Proof.
  intros H. change 8%nat with (8 + 0)%nat at 1.
  rewrite <- H, get_app_r. reflexivity.
Qed.

Ltac peel_slots h :=
  repeat first
    [ rewrite (drop_slot (group h _)) by apply group_length
    | rewrite (get_slot_skip (group h _)) by apply group_length ].

(** Cutting the rendering at the columns gives back the groups. *)
Lemma nth_group_layout h :
  Forall (fun k => nth_group (layout h) k = group h k) slots.
Proof.
  unfold layout, slots. cbn [fold_right].
  repeat apply Forall_cons; try apply Forall_nil; unfold nth_group;
    match goal with |- context [Z.to_nat ?z] =>
      let n := eval vm_compute in (Z.to_nat z) in
      change (Z.to_nat z) with n end;
    peel_slots h; cbn [drop]; apply take_slot, group_length.
Qed.

Lemma nth_separator_layout h :
  Forall (fun k => nth_separator (layout h) k = Some " "%char) slots.
Proof.
  unfold layout, slots. cbn [fold_right].
  repeat apply Forall_cons; try apply Forall_nil; unfold nth_separator;
    match goal with |- context [Z.to_nat ?z] =>
      let n := eval vm_compute in (Z.to_nat z) in
      change (Z.to_nat z) with n end;
    peel_slots h; apply get_slot_sep, group_length.
Qed.

Lemma group_bin h k : all_chars bin_or_space (group h k) = true.
Proof. unfold group. now rewrite all_chars_app, !cell_bin. Qed.

Lemma group_absent h k : size h <= 3 * k -> group h k = blank8.
Proof.
  intros H. unfold group. rewrite !cell_absent by lia. reflexivity.
Qed.

Lemma cell_nibble_or_blank h p : cell h (Z.of_nat p) = nibble_or_blank h p.
Proof.
  rewrite cell_cases by lia. now rewrite Nat2Z.id.
Qed.

Lemma layout_byte_columns h : layout h = byte_columns h.
Proof.
  unfold layout, byte_columns, slots, TOKENS, group.
  cbn [seq fold_right].
  rewrite <- !cell_nibble_or_blank.
  now rewrite !app_assoc.
Qed.

(** ** Searching and cutting a line *)

Lemma first_index_lt c s m :
  first_index c s = Some m -> (m < String.length s)%nat.
Proof.
  revert m; induction s as [|a r IH]; simpl; intros m H; [discriminate|].
  destruct (Ascii.eqb a c).
  - injection H as <-. lia.
  - destruct (first_index c r) as [j|]; simpl in H; [|discriminate].
    injection H as <-. specialize (IH j eq_refl). lia.
Qed.

Lemma first_index_get c s m :
  first_index c s = Some m -> String.get m s = Some c.
Proof.
  revert m; induction s as [|a r IH]; simpl; intros m H; [discriminate|].
  destruct (Ascii.eqb_spec a c) as [->|N].
  - injection H as <-. reflexivity.
  - destruct (first_index c r) as [j|]; simpl in H; [|discriminate].
    injection H as <-. now apply IH.
Qed.

Lemma first_index_least c s m :
  first_index c s = Some m ->
  forall j, (j < m)%nat -> String.get j s <> Some c.
Proof.
  revert m; induction s as [|a r IH]; simpl; intros m H j Hj; [discriminate|].
  destruct (Ascii.eqb_spec a c) as [->|N].
  - injection H as <-. lia.
  - destruct (first_index c r) as [i|]; simpl in H; [|discriminate].
    injection H as <-. destruct j as [|j]; [congruence|].
    apply (IH i eq_refl). lia.
Qed.

(** [first_tab] is the index of a tab with no tab before it. *)
Lemma first_tab_is_first line k :
  first_tab line = Some k ->
  String.get k line = Some TAB /\
  forall j, (j < k)%nat -> String.get j line <> Some TAB.
Proof.
  intros H. split; [now apply first_index_get | now apply first_index_least].
Qed.

Lemma drop_drop n m s : drop m (drop n s) = drop (n + m) s.
Proof.
  revert s; induction n as [|n IH]; intros s; [reflexivity|].
  destruct s as [|c r]; simpl; [now destruct m | apply IH].
Qed.

(** With a second tab at [e], the header, the tokens up to that tab and
    the trailer make up the line. *)
Lemma parts_cover_line line k e :
  second_tab line k = Some e ->
  header line k ++ take (e - S k) (drop (S k) line) ++ trailer line k = line.
Proof.
  intros H. unfold trailer, header. rewrite H.
  unfold second_tab in H.
  destruct (first_index TAB (drop (S k) line)) as [m|]; [|discriminate].
  injection H as <-.
  replace (S (k + m) - S k)%nat with m by lia.
  change (S (k + m)) with (S k + m)%nat.
  rewrite <- (drop_drop (S k) m), take_drop. apply take_drop.
Qed.

Lemma first_index_head c s :
  first_index c s = Some O <-> exists r, s = String c r.
Proof.
  split.
  - destruct s as [|a r]; simpl; [discriminate|].
    destruct (Ascii.eqb_spec a c) as [->|N]; [eauto|].
    destruct (first_index c r); discriminate.
  - intros [r ->]. simpl. now rewrite Ascii.eqb_refl.
Qed.

Lemma find_from s c p :
  0 <= p <= size s ->
  find s c p =
    match first_index c (drop (Z.to_nat p) s) with
    | Some m => p + Z.of_nat m
    | None => npos
    end.
Proof.
  intros H. unfold find.
  destruct (Z.ltb_spec (size s) p); [lia | reflexivity].
Qed.

Lemma find_first_tab line :
  find line TAB 0 =
    match first_tab line with
    | Some k => Z.of_nat k
    | None => npos
    end.
Proof.
  rewrite find_from by (pose proof (size_nonneg line); lia).
  reflexivity.
Qed.

Lemma npos_value : npos = 18446744073709551615.
Proof. reflexivity. Qed.

Lemma substr_take_drop s p n :
  0 <= p <= size s -> 0 <= n ->
  substr s p n = Ok (take (Z.to_nat n) (drop (Z.to_nat p) s)).
Proof.
  intros Hp Hn. unfold substr.
  destruct (Z.ltb_spec (size s) p); [lia|]. f_equal.
  destruct (Z.min_spec n (size s - p)) as [[_ ->]|[L ->]]; [reflexivity|].
  rewrite !take_all; [reflexivity | |]; rewrite length_drop; unfold size in *; lia.
Qed.

Lemma substr_to_end s p :
  0 <= p <= size s -> size s < npos ->
  substr s p npos = Ok (drop (Z.to_nat p) s).
Proof.
  intros Hp Hs. rewrite substr_take_drop by (rewrite ?npos_value; lia).
  rewrite take_all; [reflexivity|].
  rewrite length_drop. rewrite npos_value in *. unfold size in *. lia.
Qed.

(** The test of line 109 on a line whose first tab has a character in
    front of it. *)
Lemma plain_test_guarded line j :
  size line < npos ->
  first_tab line = Some (S j) ->
  plain_test line (find line TAB 0) = Ok (negb (colon_before line (S j))).
Proof.
  intros Hs Hk. rewrite find_first_tab, Hk.
  pose proof (first_index_lt _ _ _ Hk) as L.
  rewrite npos_value in Hs. unfold size in Hs.
  unfold plain_test.
  destruct (Z.eqb_spec (Z.of_nat (S j)) npos) as [E|_];
    [rewrite npos_value in E; lia|].
  replace (wrap (Z.of_nat (S j) - 1)) with (Z.of_nat j)
    by (rewrite wrap_small; lia).
  unfold at_. destruct (Z.ltb_spec (Z.of_nat j) (size line)) as [_|G];
    [|unfold size in G; lia].
  rewrite Nat2Z.id. simpl.
  destruct (get_some j line) as [c ->]; [lia | reflexivity].
Qed.

Lemma plain_test_no_tab line :
  first_tab line = None -> plain_test line (find line TAB 0) = Ok true.
Proof. intros H. now rewrite find_first_tab, H. Qed.

(** The same test on a line that starts with a tab: [pos - 1] wraps to
    the largest index and the read is beyond the string. *)
Lemma plain_test_tab_first line :
  size line < npos ->
  first_tab line = Some O ->
  plain_test line (find line TAB 0) = Fault OutOfBounds.
Proof.
  intros Hs Hk. rewrite find_first_tab, Hk.
  pose proof (size_nonneg line).
  unfold plain_test, at_. simpl Z.of_nat.
  change (wrap (0 - 1)) with npos. change (0 =? npos) with false.
  cbv iota.
  destruct (Z.ltb_spec npos (size line)); [lia|].
  destruct (Z.eqb_spec npos (size line)); [lia|]. reflexivity.
Qed.

Lemma plain_test_classifies line :
  size line < npos ->
  first_tab line <> Some O ->
  plain_test line (find line TAB 0) = Ok (plain_line line).
Proof.
  intros Hs N. unfold plain_line, instruction_line.
  destruct (first_tab line) as [[|j]|] eqn:E.
  - congruence.
  - now apply plain_test_guarded.
  - now apply plain_test_no_tab.
Qed.

(** ** One line *)

Lemma line_body_instruction line k full :
  size line < npos ->
  first_tab line = Some k ->
  colon_before line k = true ->
  line_body full line =
  Ok ((if full then header line k else "") ++
      transcode (byte_field line k) ++
      (if full then printed_rest line k else "") ++ nl).
Proof.
  intros Hs Hk Hc.
  destruct k as [|j]; [discriminate|].
  pose proof (first_index_lt _ _ _ Hk) as L.
  pose proof Hs as Hs'. rewrite npos_value in Hs'. unfold size in Hs'.
  unfold line_body. cbv zeta.
  rewrite (plain_test_guarded line j Hs Hk), Hc. cbn [negb bind].
  rewrite find_first_tab, Hk.
  replace (wrap (Z.of_nat (S j) + 1)) with (Z.of_nat (S (S j)))
    by (rewrite wrap_small; lia).
  assert (Hh : (if full then substr line 0 (Z.of_nat (S (S j))) else Ok "")
               = Ok (if full then header line (S j) else "")).
  { destruct full; [|reflexivity].
    rewrite substr_take_drop by (unfold size; lia).
    now rewrite Nat2Z.id. }
  rewrite Hh. cbn [bind].
  rewrite find_from by (unfold size; lia). rewrite Nat2Z.id.
  unfold byte_field, printed_rest, second_tab.
  destruct (first_index TAB (drop (S (S j)) line)) as [m|] eqn:E; cbn [option_map].
  - pose proof (first_index_lt _ _ _ E) as Lm. rewrite length_drop in Lm.
    destruct (Z.eqb_spec (Z.of_nat (S (S j)) + Z.of_nat m) npos) as [X|_];
      [rewrite npos_value in X; lia|].
    replace (wrap (Z.of_nat (S (S j)) + Z.of_nat m - Z.of_nat (S (S j)) + 1))
      with (Z.of_nat (S m)) by (rewrite wrap_small; lia).
    rewrite substr_take_drop by (unfold size; lia). cbn [bind].
    rewrite !Nat2Z.id.
    replace (S (S (S j) + m) - S (S j))%nat with (S m) by lia.
    destruct full; [|reflexivity].
    rewrite substr_to_end by first [assumption | unfold size; lia]. cbn [bind].
    replace (Z.to_nat (Z.of_nat (S (S j)) + Z.of_nat m)) with (S (S j) + m)%nat
      by lia.
    reflexivity.
  - change (npos =? npos) with true. cbv iota.
    replace (wrap (size line - 1)) with (Z.of_nat (String.length line - 1))
      by (rewrite wrap_small; unfold size; lia).
    replace (wrap (Z.of_nat (String.length line - 1) - Z.of_nat (S (S j)) + 1))
      with (Z.of_nat (String.length line - S (S j)))
      by (rewrite wrap_small; lia).
    rewrite substr_take_drop by (unfold size; lia). cbn [bind].
    rewrite !Nat2Z.id.
    rewrite take_all by (rewrite length_drop; lia).
    destruct full; [|reflexivity].
    rewrite substr_to_end by first [assumption | unfold size; lia]. cbn [bind].
    now rewrite Nat2Z.id.
Qed.


Lemma line_body_plain line full :
  size line < npos ->
  plain_line line = true ->
  tab_first line = false ->
  line_body full line = Ok (if full then line ++ nl else "").
Proof.
  intros Hs Hp Ht. unfold line_body. cbv zeta.
  rewrite plain_test_classifies, Hp; [reflexivity | assumption |].
  unfold tab_first in Ht. destruct (first_tab line) as [[|j]|]; congruence.
Qed.

(** ** The reading loop *)

Lemma getline_split s :
  (s = fst (getline s) ++ nl ++ snd (getline s)) \/
  (s = fst (getline s) /\ snd (getline s) = "" /\ first_index NL s = None).
Proof.
  induction s as [|c r IH]; simpl; [now right|].
  destruct (Ascii.eqb_spec c NL) as [->|N]; simpl; [now left|].
  destruct (getline r) as [l rest]; simpl in *.
  destruct IH as [E|(E & R & F)].
  - left. now rewrite E at 1.
  - right. rewrite F. simpl. repeat split; congruence.
Qed.

Lemma complete_after_newline l rest : complete (l ++ nl ++ rest) = complete rest.
Proof.
  unfold complete. induction l as [|a l IH]; simpl.
  - destruct rest; reflexivity.
  - change (nl ++ rest) with (String NL rest) in *.
    destruct (l ++ String NL rest) eqn:E; [destruct l; discriminate | exact IH].
Qed.

Lemma complete_after_newline_at s l rest :
  s = l ++ nl ++ rest -> complete s = complete rest.
Proof. intros ->. apply complete_after_newline. Qed.

Lemma incomplete_without_newline s :
  s <> "" -> first_index NL s = None -> complete s = false.
Proof.
  unfold complete. induction s as [|a r IH]; [congruence|]. intros _ F.
  simpl in F. destruct (Ascii.eqb a NL) eqn:E; [discriminate|].
  destruct (first_index NL r) eqn:G; [discriminate|].
  simpl. destruct r as [|b r]; [exact E|].
  apply IH; [discriminate | reflexivity].
Qed.

Lemma getline_lengths s :
  s <> "" ->
  (String.length (fst (getline s)) + String.length (snd (getline s))
   <= String.length s)%nat /\
  (String.length (snd (getline s)) < String.length s)%nat.
Proof.
  intros Hne.
  assert (0 < String.length s)%nat by (destruct s; [congruence | simpl; lia]).
  destruct (getline_split s) as [E|(E & R & _)].
  - apply (f_equal String.length) in E. rewrite !length_app in E.
    change (String.length nl) with 1%nat in E. lia.
  - rewrite R, <- E. simpl. lia.
Qed.

Lemma read_loop_plain n :
  forall content,
    (String.length content <= n)%nat ->
    size content < npos ->
    Forall (fun l => plain_line l = true /\ tab_first l = false)
           (file_lines content) ->
    read_loop true content =
    Ok (if complete content then content else content ++ nl).
Proof.
  induction n as [|n IH]; intros [|c r] Hn Hs Hall;
    try reflexivity; [simpl in Hn; lia|].
  rewrite file_lines_equation_2 in Hall.
  apply Forall_cons_iff in Hall. destruct Hall as [[Hp Ht] Hrest].
  rewrite read_loop_equation_2.
  remember (String c r) as s eqn:Es.
  assert (Hne : s <> "") by (subst; discriminate).
  destruct (getline_lengths s Hne) as [Hl1 Hl2].
  unfold size in Hs.
  rewrite line_body_plain; [|unfold size; lia|assumption|assumption].
  cbn [bind].
  rewrite IH; [|lia|unfold size; lia|assumption]. cbn [bind].
  f_equal.
  destruct (getline_split s) as [E|(E & R & F)].
  - rewrite (complete_after_newline_at s _ _ E).
    destruct (complete (snd (getline s))).
    + rewrite app_assoc. now rewrite <- E.
    + rewrite E at 3. now rewrite !app_assoc.
  - rewrite R. cbn [complete last_char]. rewrite app_nil_r, <- E.
    rewrite incomplete_without_newline; [reflexivity | assumption | assumption].
Qed.

(** ** The rendering of the byte field *)

(** C1, as amended: for every byte field the rendering is exactly 63
    characters, seven groups of 8 binary digits or blanks, each followed
    by one separator blank, whatever the number of tokens in the field;
    the groups of the slots beyond the end of the field are blank. *)
Theorem rendering_width (hex_part : string) :
  String.length (transcode hex_part) = 63%nat /\
  Forall (fun k =>
            String.length (nth_group (transcode hex_part) k) = 8%nat /\
            all_chars bin_or_space (nth_group (transcode hex_part) k) = true /\
            nth_separator (transcode hex_part) k = Some " "%char /\
            (size hex_part <= 3 * k ->
             nth_group (transcode hex_part) k = blank8))
         slots.
Proof.
  split; [apply transcode_length|].
  rewrite transcode_layout. apply Forall_forall. intros k Hk.
  pose proof (proj1 (Forall_forall _ _) (nth_group_layout hex_part) k Hk) as G.
  pose proof (proj1 (Forall_forall _ _) (nth_separator_layout hex_part) k Hk) as S.
  cbv beta in G, S. rewrite G, S.
  repeat split.
  - apply group_length.
  - apply group_bin.
  - apply group_absent.
Qed.

Lemma rendering_width_witness :
  size "4b 8d" <= 3 * 2 /\ nth_group (transcode "4b 8d") 2 = blank8.
Proof.
  split; [vm_compute; discriminate|].
  pose proof (proj2 (rendering_width "4b 8d")) as F.
  apply (proj1 (Forall_forall _ _) F 2); [simpl; tauto | vm_compute; discriminate].
Defined.

(** C1 as stated fails: the rendering of the four-token field of the
    specification's own example is not 35 characters long. *)
Lemma rendering_not_35 : String.length (transcode "4b 8d 05 6f") <> 35%nat.
Proof. vm_compute. discriminate. Qed.

(** C2, as amended: both characters of every slot are inspected and
    converted, each on its own: a character that is present and not
    white space gives the 4 binary digits of its value, an absent or
    white-space one gives 4 blanks, so a slot renders as 8 characters;
    the field "4b 8d 05 6f" renders as the bytes 4b, 8d, 05, 6f in full
    and three blank groups. *)
Theorem both_characters_converted (hex_part : string) :
  Forall (fun k =>
            nth_group (transcode hex_part) k =
            cell hex_part (3 * k) ++ cell hex_part (3 * k + 1))
         slots /\
  (forall p : nat,
      cell hex_part (Z.of_nat p) =
      match String.get p hex_part with
      | Some c => if isspace c then blank4 else msb_first (extract_hex c)
      | None => blank4
      end) /\
  transcode "4b 8d 05 6f" =
    "01001011 10001101 00000101 01101111 " ++
    blank8 ++ " " ++ blank8 ++ " " ++ blank8 ++ " ".
Proof.
  repeat split.
  - rewrite transcode_layout. apply nth_group_layout.
  - intros p. apply cell_nibble_or_blank.
Qed.

(** C2 as stated fails: on the field "4b 8d 05 6f" the rendering that
    converts the leading character of each slot alone is the 35
    characters of the specification, and the program prints another. *)
Lemma leading_only_refuted :
  leading_only "4b 8d 05 6f" = "0100 1000 0000 0110 " ++ blank4 ++ " " ++ blank4 ++ " " ++ blank4 ++ " " /\
  transcode "4b 8d 05 6f" <> leading_only "4b 8d 05 6f" /\
  nth_group (transcode "4b 8d 05 6f") 0 = "01001011".
Proof. vm_compute. repeat split. discriminate. Qed.

Lemma nibble_or_blank_length h p :
  String.length (nibble_or_blank h p) = 4%nat.
Proof. rewrite <- cell_nibble_or_blank. apply cell_length. Qed.

Lemma drop_length_app a b : drop (String.length a) (a ++ b) = b.
Proof. induction a; simpl; auto. Qed.

(** The group the loop leaves in the rendering for slot [k], as the two
    halves that come from positions [3k] and [3k+1] of the field. *)
Lemma group_halves h k :
  (k < TOKENS)%nat ->
  nth_group (transcode h) (Z.of_nat k) =
  nibble_or_blank h (3 * k) ++ nibble_or_blank h (3 * k + 1).
Proof.
  intros Hk.
  assert (In (Z.of_nat k) slots) as Hin.
  { unfold TOKENS in Hk. unfold slots.
    do 7 (destruct k as [|k]; [simpl; tauto|]). lia. }
  rewrite transcode_layout.
  rewrite (proj1 (Forall_forall _ _) (nth_group_layout h) _ Hin).
  unfold group.
  replace (3 * Z.of_nat k) with (Z.of_nat (3 * k)) by lia.
  replace (Z.of_nat (3 * k) + 1) with (Z.of_nat (3 * k + 1)) by lia.
  now rewrite !cell_nibble_or_blank.
Qed.

(** C6: a slot character that is a hexadecimal digit has a value from 0
    to 15, and the rendering the loop emits holds, at the four columns of
    that character (the first half of the group of its slot for position
    3k, the second half for position 3k+1), the four binary digits of
    that value, most significant first; the bit loop produces them least
    significant first and the result is reversed; the field "a" is
    rendered with 1010 in its first four columns. *)
Theorem hex_digit_rendering (hex_part : string) (k : nat) (c : ascii) (v : Z) :
  (k < TOKENS)%nat ->
  hex_digit c = Some v ->
  0 <= v <= 15 /\
  (String.get (3 * k) hex_part = Some c ->
   take 4 (nth_group (transcode hex_part) (Z.of_nat k)) = msb_first v) /\
  (String.get (3 * k + 1) hex_part = Some c ->
   drop 4 (nth_group (transcode hex_part) (Z.of_nat k)) = msb_first v) /\
  bits_loop 4 (extract_hex c) "" = lsb_first v /\
  msb_first v = rev_string (lsb_first v) /\
  take 4 (transcode "a") = "1010".
Proof.
  intros Hk Hhex.
  pose proof (hex_digit_range c v Hhex) as R.
  assert (E : extract_hex c = v) by (unfold extract_hex; now rewrite Hhex).
  assert (N : forall p, String.get p hex_part = Some c ->
                        nibble_or_blank hex_part p = msb_first v).
  { intros p Hget. unfold nibble_or_blank.
    now rewrite Hget, (hex_digit_not_space c v Hhex), E. }
  rewrite (group_halves hex_part k Hk).
  split; [lia|]. split; [|split].
  - intros Hget. rewrite <- (N _ Hget).
    rewrite <- (nibble_or_blank_length hex_part (3 * k)) at 1.
    apply take_app.
  - intros Hget. rewrite <- (N _ Hget).
    rewrite <- (nibble_or_blank_length hex_part (3 * k)) at 1.
    apply drop_length_app.
  - rewrite E. split; [now apply bits_loop_lsb|]. split; [|reflexivity].
    rewrite <- bits_loop_lsb by assumption. symmetry. now apply rev_bits_msb.
Qed.

Lemma hex_digit_rendering_witness :
  (0 < TOKENS)%nat /\
  hex_digit "a" = Some 10 /\
  String.get (3 * 0 + 1) "4a" = Some "a"%char /\
  drop 4 (nth_group (transcode "4a") 0) = "1010".
Proof.
  split; [unfold TOKENS; lia|]. split; [reflexivity|]. split; [reflexivity|].
  apply (hex_digit_rendering "4a" 0 "a"%char 10);
    first [reflexivity | unfold TOKENS; lia].
Defined.

(** C9: the loop converts both positions of each slot on their own, a
    present non-space character into its four binary digits and any
    other position into four blanks, so that each slot gives 8 characters
    and a separator and the rendering is always 63 characters; a token of
    two hexadecimal digits is rendered as the 8 binary digits of its
    byte. *)
Theorem transcode_byte_columns (hex_part : string) :
  transcode hex_part = byte_columns hex_part /\
  String.length (transcode hex_part) = 63%nat /\
  (forall (k : nat) (hi lo : ascii) (a b : Z),
      (k < TOKENS)%nat ->
      String.get (3 * k) hex_part = Some hi ->
      String.get (3 * k + 1) hex_part = Some lo ->
      hex_digit hi = Some a ->
      hex_digit lo = Some b ->
      nth_group (transcode hex_part) (Z.of_nat k) = byte_bits (16 * a + b)).
Proof.
  split; [now rewrite transcode_layout, layout_byte_columns|].
  split; [apply transcode_length|].
  intros k hi lo a b Hk Hhi Hlo Ha Hb.
  assert (In (Z.of_nat k) slots) as Hin.
  { unfold TOKENS in Hk. unfold slots.
    do 7 (destruct k as [|k]; [simpl; tauto|]). lia. }
  rewrite transcode_layout.
  rewrite (proj1 (Forall_forall _ _) (nth_group_layout hex_part) _ Hin).
  unfold group.
  replace (3 * Z.of_nat k) with (Z.of_nat (3 * k)) by lia.
  replace (Z.of_nat (3 * k) + 1) with (Z.of_nat (3 * k + 1)) by lia.
  rewrite !cell_nibble_or_blank. unfold nibble_or_blank.
  rewrite Hhi, Hlo.
  rewrite (hex_digit_not_space hi a Ha), (hex_digit_not_space lo b Hb).
  unfold extract_hex. rewrite Ha, Hb.
  symmetry. apply byte_bits_nibbles; eapply hex_digit_range; eauto.
Qed.

Lemma transcode_byte_columns_witness :
  nth_group (transcode "4b 8d 05 6f") 1 = byte_bits 141.
Proof.
  apply (proj2 (proj2 (transcode_byte_columns "4b 8d 05 6f")) 1%nat "8"%char "d"%char 8 13);
    [unfold TOKENS; lia | reflexivity | reflexivity | reflexivity | reflexivity].
Defined.

(** ** The lines *)

(** On a line with a second tab the three parts are put together as the
    specification says. *)
Lemma line_body_two_tabs line k e :
  size line < npos ->
  first_tab line = Some k ->
  colon_before line k = true ->
  second_tab line k = Some e ->
  line_body true line =
  Ok (header line k ++ transcode (byte_field line k) ++ trailer line k ++ nl).
Proof.
  intros Hs Hk Hc He.
  rewrite (line_body_instruction line k true Hs Hk Hc).
  unfold printed_rest, trailer. now rewrite He.
Qed.

(** C3, at the line the program gets wrong: a line that starts with a
    tab has no colon before its first tab and is a plain line of the
    specification, and the test of the program reads before the start of
    the line, in both modes. *)
Theorem tab_first_line_faults :
  plain_line (tab ++ "foo") = true /\
  find (tab ++ "foo") TAB 0 = 0 /\
  line_body true (tab ++ "foo") = Fault OutOfBounds /\
  line_body false (tab ++ "foo") = Fault OutOfBounds.
Proof. repeat split. Qed.

(** C10: on a line that starts with a tab the colon test reads
    [line[pos-1]] with [pos = 0]; the index wraps to the largest
    [size_t], beyond the line, and the read has no defined value; on
    every other line the test is defined, decides as the classifier of
    the specification does, and the round of the loop ends normally. *)
Theorem colon_test_out_of_bounds (line : string) :
  size line < npos ->
  ((exists r, line = String TAB r) ->
   find line TAB 0 = 0 /\
   wrap (find line TAB 0 - 1) = npos /\
   size line < wrap (find line TAB 0 - 1) /\
   at_ line (wrap (find line TAB 0 - 1)) = Fault OutOfBounds /\
   plain_test line (find line TAB 0) = Fault OutOfBounds /\
   forall full, line_body full line = Fault OutOfBounds) /\
  ((forall r, line <> String TAB r) ->
   plain_test line (find line TAB 0) = Ok (plain_line line) /\
   forall full, exists out, line_body full line = Ok out).
Proof.
  intros Hs. split.
  - intros Hr. apply first_index_head in Hr. fold (first_tab line) in Hr.
    pose proof (plain_test_tab_first line Hs Hr) as P.
    assert (F : find line TAB 0 = 0) by (now rewrite find_first_tab, Hr).
    rewrite F in *. change (wrap (0 - 1)) with npos.
    repeat split; try assumption.
    + pose proof (size_nonneg line). unfold at_.
      destruct (Z.ltb_spec npos (size line)); [lia|].
      destruct (Z.eqb_spec npos (size line)); [lia | reflexivity].
    + intros full. unfold line_body. cbv zeta. rewrite F, P. reflexivity.
  - intros Hr.
    assert (N : first_tab line <> Some O).
    { intros E. apply first_index_head in E. destruct E as [r E].
      now apply (Hr r). }
    split; [now apply plain_test_classifies|].
    intros full. unfold plain_line, instruction_line.
    destruct (first_tab line) as [k|] eqn:Ek.
    + destruct (colon_before line k) eqn:Ec.
      * rewrite (line_body_instruction line k full Hs Ek Ec). eauto.
      * rewrite line_body_plain; eauto.
        -- unfold plain_line, instruction_line. now rewrite Ek, Ec.
        -- unfold tab_first. rewrite Ek. destruct k; congruence.
    + rewrite line_body_plain; eauto.
      * unfold plain_line, instruction_line. now rewrite Ek.
      * unfold tab_first. now rewrite Ek.
Qed.

Lemma colon_test_out_of_bounds_witness :
  size (tab ++ "foo") < npos /\
  (exists r, tab ++ "foo" = String TAB r) /\
  plain_test (tab ++ "foo") (find (tab ++ "foo") TAB 0) = Fault OutOfBounds /\
  (forall r, "0:" ++ tab ++ "ff" <> String TAB r) /\
  plain_test ("0:" ++ tab ++ "ff") (find ("0:" ++ tab ++ "ff") TAB 0) = Ok false.
Proof.
  split; [reflexivity|]. split; [exists "foo"; reflexivity|]. split.
  - apply (colon_test_out_of_bounds (tab ++ "foo")); [reflexivity|].
    exists "foo"; reflexivity.
  - split; [intros r; discriminate|].
    apply (colon_test_out_of_bounds ("0:" ++ tab ++ "ff")); [reflexivity|].
    intros r; discriminate.
Defined.

(** C4, at the line the program gets wrong: on an instruction line
    without a second tab the trailer of the specification is empty, and
    the program prints the last character of the line once more after
    the rendering. *)
Theorem continuation_line_repeats_last_char :
  instruction_line ("0:" ++ tab ++ "ff") = true /\
  first_tab ("0:" ++ tab ++ "ff") = Some 2%nat /\
  second_tab ("0:" ++ tab ++ "ff") 2 = None /\
  header ("0:" ++ tab ++ "ff") 2 = "0:" ++ tab /\
  byte_field ("0:" ++ tab ++ "ff") 2 = "ff" /\
  trailer ("0:" ++ tab ++ "ff") 2 = "" /\
  line_body true ("0:" ++ tab ++ "ff") =
    Ok ("0:" ++ tab ++ transcode "ff" ++ "f" ++ nl) /\
  line_body true ("0:" ++ tab ++ "ff") <>
    Ok ("0:" ++ tab ++ transcode "ff" ++ "" ++ nl).
Proof. repeat split. vm_compute. discriminate. Qed.

(** C5, as amended: a plain line whose first tab, if it has one, is not
    its first character is printed as it is with a newline in full-output
    mode and gives nothing in binary-only mode; full-output mode on a
    file of such lines prints the file as it is when the file is empty or
    ends with a newline, and the file with one more newline otherwise. *)
Theorem plain_passthrough :
  (forall line,
      size line < npos ->
      plain_line line = true ->
      tab_first line = false ->
      line_body true line = Ok (line ++ nl) /\
      line_body false line = Ok "") /\
  (forall (fs : filesystem) filename content,
      fs filename = Some content ->
      size content < npos ->
      Forall (fun l => plain_line l = true /\ tab_first l = false)
             (file_lines content) ->
      process_objdump_file fs filename true =
      Ok (mkRun (if complete content then content else content ++ nl) "" 0)).
Proof.
  split.
  - intros line Hs Hp Ht.
    split; now rewrite line_body_plain.
  - intros fs filename content Hf Hs Hall.
    unfold process_objdump_file. rewrite Hf.
    now rewrite (read_loop_plain _ content (le_n _) Hs Hall).
Qed.

Lemma plain_passthrough_witness :
  line_body true "08049000 <start>:" = Ok ("08049000 <start>:" ++ nl) /\
  process_objdump_file (fun _ => Some ("a" ++ tab ++ "b" ++ nl ++ "c" ++ nl)) "f" true =
  Ok (mkRun ("a" ++ tab ++ "b" ++ nl ++ "c" ++ nl) "" 0).
Proof.
  split.
  - apply (proj1 plain_passthrough "08049000 <start>:"); reflexivity.
  - apply (proj2 plain_passthrough
             (fun _ => Some ("a" ++ tab ++ "b" ++ nl ++ "c" ++ nl)) "f"
             ("a" ++ tab ++ "b" ++ nl ++ "c" ++ nl));
      [reflexivity | reflexivity |].
    vm_compute. repeat constructor.
Defined.

(** C5 as stated fails: a file of one plain line that does not end with
    a newline comes out one character longer than it went in. *)
Lemma passthrough_adds_newline :
  Forall (fun l => plain_line l = true) (file_lines "abc") /\
  process_objdump_file (fun _ => Some "abc") "f" true =
    Ok (mkRun ("abc" ++ nl) "" 0) /\
  stdout (mkRun ("abc" ++ nl) "" 0) <> "abc".
Proof.
  split; [vm_compute; repeat constructor|].
  split; [reflexivity | vm_compute; discriminate].
Qed.

(** ** The command line and the file *)

(** C7: without arguments the program prints the usage text on standard
    output and exits with code 0; with a first argument other than -b
    followed by more arguments, and with -b and no file name after it,
    it prints a message that is not empty and the usage text on standard
    output, and exits with code 1. *)
Theorem argument_handling (fs : filesystem) :
  (forall argv,
      (List.length argv <= 1)%nat ->
      main fs argv = Ok (mkRun usage_text "" 0)) /\
  (forall prog token extra more,
      token <> "-b" ->
      "Unknown option: " ++ token <> "" /\
      main fs (prog :: token :: extra :: more) =
      Ok (mkRun (("Unknown option: " ++ token) ++
                 ("Unknown option: " ++ token) ++ usage_text) "" 1)) /\
  (forall prog,
      "Missing objdump_output_file." <> "" /\
      main fs [prog; "-b"] =
      Ok (mkRun ("Missing objdump_output_file." ++
                 "Missing objdump_output_file." ++ usage_text) "" 1)).
Proof.
  split; [|split].
  - intros argv H. unfold main. cbv zeta.
    destruct (Z.ltb_spec (Z.of_nat (List.length argv)) 2); [reflexivity | lia].
  - intros prog token extra more H.
    split; [discriminate|].
    unfold main. cbv zeta.
    cbn [List.length nth].
    destruct (Z.ltb_spec (Z.of_nat (S (S (S (List.length more))))) 2); [lia|].
    destruct (String.eqb_spec token "-b"); [contradiction|].
    destruct (Z.ltb_spec 2 (Z.of_nat (S (S (S (List.length more)))))); [|lia].
    cbn [negb andb]. reflexivity.
  - intros prog. split; [discriminate | reflexivity].
Qed.

Lemma argument_handling_witness :
  main (fun _ => None) ["objdump_to_bindump"] = Ok (mkRun usage_text "" 0) /\
  exists out,
    main (fun _ => None) ["objdump_to_bindump"; "-x"; "dump.txt"] =
    Ok (mkRun out "" 1).
Proof.
  split.
  - apply (proj1 (argument_handling (fun _ => None))). simpl. lia.
  - eexists.
    apply (proj1 (proj2 (argument_handling (fun _ => None)))
             "objdump_to_bindump" "-x" "dump.txt" []).
    discriminate.
Defined.

(** C8: when the file cannot be opened the program writes an error that
    names the file on the error stream, writes nothing on standard
    output and exits with code 1, whether the name is the only argument
    or follows -b. *)
Theorem open_failure (fs : filesystem) (filename : string) :
  fs filename = None ->
  (forall full_output,
      process_objdump_file fs filename full_output =
      Ok (mkRun "" ("Failed to open " ++ filename ++ " for input." ++ nl) 1)) /\
  (forall prog,
      filename <> "-b" ->
      main fs [prog; filename] =
      Ok (mkRun "" ("Failed to open " ++ filename ++ " for input." ++ nl) 1)) /\
  (forall prog more,
      main fs (prog :: "-b" :: filename :: more) =
      Ok (mkRun "" ("Failed to open " ++ filename ++ " for input." ++ nl) 1)).
Proof.
  intros H.
  assert (P : forall full_output,
             process_objdump_file fs filename full_output =
             Ok (mkRun "" ("Failed to open " ++ filename ++ " for input." ++ nl) 1)).
  { intros full_output. unfold process_objdump_file. now rewrite H. }
  split; [exact P | split].
  - intros prog N. unfold main. cbv zeta. cbn [List.length nth].
    destruct (String.eqb_spec filename "-b"); [contradiction|].
    cbn. apply P.
  - intros prog more. unfold main. cbv zeta. cbn [List.length nth].
    destruct (Z.ltb_spec (Z.of_nat (S (S (S (List.length more))))) 2); [lia|].
    change (String.eqb "-b" "-b") with true. cbn [negb andb].
    destruct (Z.ltb_spec 2 (Z.of_nat (S (S (S (List.length more)))))); [|lia].
    change (Z.to_nat 2) with 2%nat. cbn [nth]. apply P.
Qed.

Lemma open_failure_witness :
  main (fun _ => None) ["objdump_to_bindump"; "missing.txt"] =
  Ok (mkRun "" ("Failed to open missing.txt for input." ++ nl) 1).
Proof.
  apply (proj1 (proj2 (open_failure (fun _ => None) "missing.txt" eq_refl))
           "objdump_to_bindump").
  discriminate.
Defined.

(** ** More on the rendering *)

Lemma get_app_l n a b :
  (n < String.length a)%nat -> String.get n (a ++ b) = String.get n a.
Proof.
  revert n; induction a as [|c a IH]; simpl; intros n H; [lia|].
  destruct n; [reflexivity | apply IH; lia].
Qed.

Lemma length_take n s :
  (n <= String.length s)%nat -> String.length (take n s) = n.
Proof.
  revert s; induction n as [|n IH]; intros [|c r]; simpl; intros H;
    try reflexivity; try lia.
  rewrite IH; [reflexivity | lia].
Qed.

Lemma all_chars_get q s i c :
  all_chars q s = true -> String.get i s = Some c -> q c = true.
Proof.
  revert i; induction s as [|a r IH]; simpl; intros i H G; [discriminate|].
  apply andb_true_iff in H. destruct H as [Ha Hr].
  destruct i; [injection G as <-; exact Ha | eapply IH; eauto].
Qed.

Lemma byte_columns_same h1 h2 :
  same_tokens h1 h2 -> byte_columns h1 = byte_columns h2.
Proof.
  unfold same_tokens, TOKENS. cbn [seq]. intros H.
  repeat (apply Forall_cons_iff in H; destruct H as [[? ?] H]).
  unfold byte_columns, TOKENS, nibble_or_blank. cbn [seq fold_right].
  repeat match goal with
         | E : String.get _ h1 = String.get _ h2 |- _ => rewrite E; clear E
         end.
  reflexivity.
Qed.

(** X1: the rendering depends on the byte field only through positions
    3k and 3k+1 of the seven slots: the character between two tokens and
    everything from position 20 on are never read. *)
Theorem transcode_same_tokens (h1 h2 : string) :
  same_tokens h1 h2 -> transcode h1 = transcode h2.
Proof.
  intros H.
  rewrite !transcode_layout, !layout_byte_columns.
  now apply byte_columns_same.
Qed.

Lemma transcode_same_tokens_witness :
  transcode "4b 8d 05 6f 00 11 22 33 44" = transcode "4b-8d-05-6f-00-11-22".
Proof.
  apply (transcode_same_tokens "4b 8d 05 6f 00 11 22 33 44" "4b-8d-05-6f-00-11-22").
  unfold same_tokens, TOKENS. cbn [seq].
  repeat (apply Forall_cons; [split; reflexivity|]). apply Forall_nil.
Defined.

Lemma nibble_or_blank_padding s w p :
  all_chars isspace w = true ->
  nibble_or_blank (s ++ w) p = nibble_or_blank s p.
Proof.
  intros Hw. unfold nibble_or_blank.
  destruct (Nat.lt_ge_cases p (String.length s)) as [L|G].
  - now rewrite get_app_l.
  - rewrite (get_none p s G).
    replace p with (String.length s + (p - String.length s))%nat by lia.
    rewrite get_app_r.
    destruct (String.get (p - String.length s) w) as [c|] eqn:E; [|reflexivity].
    now rewrite (all_chars_get isspace w _ c Hw E).
Qed.

(** X2: white space at the end of the byte field, the second tab
    included, does not change the rendering; a field of white space
    only, the empty one included, renders as 63 blanks. *)
Theorem transcode_padding (s w : string) :
  all_chars isspace w = true ->
  transcode (s ++ w) = transcode s /\
  transcode w =
    blank8 ++ " " ++ blank8 ++ " " ++ blank8 ++ " " ++ blank8 ++ " " ++
    blank8 ++ " " ++ blank8 ++ " " ++ blank8 ++ " ".
Proof.
  intros Hw.
  assert (P : forall t, transcode (t ++ w) = transcode t).
  { intros t. rewrite !transcode_layout, !layout_byte_columns.
    unfold byte_columns. cbn [TOKENS seq fold_right].
    now rewrite !nibble_or_blank_padding. }
  split; [apply P|].
  change w with ("" ++ w). now rewrite P.
Qed.

Lemma transcode_padding_witness :
  transcode ("b8 10 90 04 08 " ++ tab) = transcode "b8 10 90 04 08".
Proof.
  apply (proj1 (transcode_padding "b8 10 90 04 08" (" " ++ tab) eq_refl)).
Defined.

Lemma token_group h k hi lo a b :
  (k < TOKENS)%nat ->
  String.get (3 * k) h = Some hi ->
  String.get (3 * k + 1) h = Some lo ->
  hex_digit hi = Some a ->
  hex_digit lo = Some b ->
  nth_group (transcode h) (Z.of_nat k) = msb_first a ++ msb_first b.
Proof.
  intros Hk Hhi Hlo Ha Hb.
  assert (In (Z.of_nat k) slots) as Hin.
  { unfold TOKENS in Hk. unfold slots.
    do 7 (destruct k as [|k]; [simpl; tauto|]). lia. }
  rewrite transcode_layout.
  rewrite (proj1 (Forall_forall _ _) (nth_group_layout h) _ Hin).
  unfold group.
  replace (3 * Z.of_nat k) with (Z.of_nat (3 * k)) by lia.
  replace (Z.of_nat (3 * k) + 1) with (Z.of_nat (3 * k + 1)) by lia.
  rewrite !cell_nibble_or_blank. unfold nibble_or_blank.
  rewrite Hhi, Hlo.
  rewrite (hex_digit_not_space hi a Ha), (hex_digit_not_space lo b Hb).
  unfold extract_hex. now rewrite Ha, Hb.
Qed.

Lemma read_binary_nibbles a b :
  0 <= a < 16 -> 0 <= b < 16 ->
  read_binary (msb_first a ++ msb_first b) = 16 * a + b.
Proof.
  intros Ha Hb.
  pose proof (nibble_cases a Ha) as Ia. pose proof (nibble_cases b Hb) as Ib.
  simpl in Ia, Ib.
  repeat (destruct Ia as [<- | Ia]; [clear Ha;
    repeat (destruct Ib as [<- | Ib]; [reflexivity|]); contradiction|]).
  contradiction.
Qed.

(** X3: the rendering can be read back: the group of a token of two
    hexadecimal digits, read as a binary numeral, is the value of the
    byte, so tokens of different values have different groups. *)
Theorem rendering_reads_back (hex_part : string) (k : nat) (hi lo : ascii)
    (a b : Z) :
  (k < TOKENS)%nat ->
  String.get (3 * k) hex_part = Some hi ->
  String.get (3 * k + 1) hex_part = Some lo ->
  hex_digit hi = Some a ->
  hex_digit lo = Some b ->
  read_binary (nth_group (transcode hex_part) (Z.of_nat k)) = 16 * a + b /\
  0 <= 16 * a + b <= 255.
Proof.
  intros Hk Hhi Hlo Ha Hb.
  pose proof (hex_digit_range hi a Ha). pose proof (hex_digit_range lo b Hb).
  rewrite (token_group hex_part k hi lo a b Hk Hhi Hlo Ha Hb).
  split; [now apply read_binary_nibbles | lia].
Qed.

Lemma rendering_reads_back_witness :
  read_binary (nth_group (transcode "4b 8d 05 6f") 3) = 111.
Proof.
  apply (rendering_reads_back "4b 8d 05 6f" 3 "6"%char "f"%char 6 15);
    [unfold TOKENS; lia | reflexivity | reflexivity | reflexivity | reflexivity].
Defined.

(** ** More on the lines *)

Lemma instruction_line_first_tab line :
  instruction_line line = true ->
  exists j, first_tab line = Some (S j) /\ colon_before line (S j) = true.
Proof.
  unfold instruction_line. destruct (first_tab line) as [[|j]|];
    try discriminate. eauto.
Qed.

Lemma header_length line k :
  first_tab line = Some k -> String.length (header line k) = S k.
Proof.
  intros H. apply first_index_lt in H. unfold header.
  apply length_take. lia.
Qed.

Lemma last_char_drop s :
  s <> "" ->
  exists c, last_char s = Some c /\ drop (String.length s - 1) s = String c "".
Proof.
  induction s as [|a r IH]; [congruence|]. intros _.
  destruct r as [|b r]; [exists a; split; reflexivity|].
  destruct IH as [c [L D]]; [discriminate|].
  exists c. split; [exact L|].
  replace (String.length (String a (String b r)) - 1)%nat
    with (S (String.length (String b r) - 1)) by (simpl; lia).
  exact D.
Qed.

(** X4: in binary-only mode an instruction line gives the rendering of
    its byte field and a newline, 64 characters in all, and nothing of
    its header or trailer, whether it has a second tab or not. *)
Theorem binary_only_instruction_line (line : string) :
  size line < npos ->
  instruction_line line = true ->
  exists k,
    first_tab line = Some k /\
    line_body false line = Ok (transcode (byte_field line k) ++ nl) /\
    String.length (transcode (byte_field line k) ++ nl) = 64%nat.
Proof.
  intros Hs Hi.
  destruct (instruction_line_first_tab line Hi) as [j [Hk Hc]].
  exists (S j). split; [exact Hk|]. split.
  - now rewrite (line_body_instruction line (S j) false Hs Hk Hc).
  - rewrite length_app, transcode_length. reflexivity.
Qed.

Lemma binary_only_instruction_line_witness :
  exists k,
    first_tab (" 804913c:" ++ tab ++ "b8 10 " ++ tab ++ "mov") = Some k /\
    line_body false (" 804913c:" ++ tab ++ "b8 10 " ++ tab ++ "mov") =
    Ok (transcode (byte_field (" 804913c:" ++ tab ++ "b8 10 " ++ tab ++ "mov") k)
        ++ nl) /\
    String.length
      (transcode (byte_field (" 804913c:" ++ tab ++ "b8 10 " ++ tab ++ "mov") k)
       ++ nl) = 64%nat.
Proof.
  apply (binary_only_instruction_line
           (" 804913c:" ++ tab ++ "b8 10 " ++ tab ++ "mov")); reflexivity.
Defined.

(** X5: in full-output mode an instruction line with a second tab comes
    out as its header, the 63 characters of the rendering of its byte
    field and its trailer from the second tab on: the header is kept as
    it is, and the trailer starts 63 columns after the header whatever
    the number of tokens. *)
Theorem full_output_two_tabs (line : string) (k e : nat) :
  size line < npos ->
  first_tab line = Some k ->
  colon_before line k = true ->
  second_tab line k = Some e ->
  exists out,
    line_body true line = Ok out /\
    out = header line k ++ transcode (byte_field line k) ++ drop e line ++ nl /\
    take (S k) out = take (S k) line /\
    drop (S k + 63) out = drop e line ++ nl.
Proof.
  intros Hs Hk Hc He.
  exists (header line k ++ transcode (byte_field line k) ++ drop e line ++ nl).
  split.
  - rewrite (line_body_instruction line k true Hs Hk Hc).
    unfold printed_rest. now rewrite He.
  - split; [reflexivity|]. split.
    + rewrite <- (header_length line k Hk) at 1. now rewrite take_app.
    + rewrite <- (header_length line k Hk).
      rewrite <- (transcode_length (byte_field line k)).
      rewrite <- length_app, <- app_assoc.
      generalize (header line k ++ transcode (byte_field line k)).
      intros p. induction p; simpl; auto.
Qed.

Lemma full_output_two_tabs_witness :
  line_body true ("0:" ++ tab ++ "c3 " ++ tab ++ "ret") =
  Ok ("0:" ++ tab ++ transcode ("c3 " ++ tab) ++ tab ++ "ret" ++ nl).
Proof.
  destruct (full_output_two_tabs ("0:" ++ tab ++ "c3 " ++ tab ++ "ret") 2 6
              eq_refl eq_refl eq_refl eq_refl) as [out [H [E _]]].
  rewrite H, E. reflexivity.
Defined.

(** X6: in full-output mode an instruction line without a second tab
    comes out as its header, the rendering of all that follows the first
    tab, and then the last character of the line once more before the
    newline. *)
Theorem full_output_no_second_tab (line : string) (k : nat) :
  size line < npos ->
  first_tab line = Some k ->
  colon_before line k = true ->
  second_tab line k = None ->
  exists c,
    last_char line = Some c /\
    line_body true line =
    Ok (header line k ++ transcode (drop (S k) line) ++ String c "" ++ nl).
Proof.
  intros Hs Hk Hc He.
  assert (Hne : line <> "").
  { intros ->. discriminate. }
  destruct (last_char_drop line Hne) as [c [L D]].
  exists c. split; [exact L|].
  rewrite (line_body_instruction line k true Hs Hk Hc).
  unfold printed_rest, byte_field. now rewrite He, D.
Qed.

Lemma full_output_no_second_tab_witness :
  exists c,
    last_char (" 8049141:" ++ tab ++ "00 00 ") = Some c /\
    line_body true (" 8049141:" ++ tab ++ "00 00 ") =
    Ok (header (" 8049141:" ++ tab ++ "00 00 ") 9 ++
        transcode (drop 10 (" 8049141:" ++ tab ++ "00 00 ")) ++
        String c "" ++ nl).
Proof.
  apply (full_output_no_second_tab (" 8049141:" ++ tab ++ "00 00 ") 9);
    reflexivity.
Defined.

(** ** More on the file *)

Lemma line_body_output line full :
  size line < npos ->
  tab_first line = false ->
  line_body full line = Ok (line_output full line).
Proof.
  intros Hs Ht. unfold line_output.
  destruct (instruction_line line) eqn:Hi.
  - destruct (instruction_line_first_tab line Hi) as [j [Hk Hc]].
    rewrite Hk. now apply line_body_instruction.
  - apply line_body_plain; try assumption.
    unfold plain_line. now rewrite Hi.
Qed.

Lemma line_body_tab_first line full :
  size line < npos ->
  tab_first line = true ->
  line_body full line = Fault OutOfBounds.
Proof.
  intros Hs Ht. unfold line_body. cbv zeta.
  rewrite plain_test_tab_first; [reflexivity | assumption |].
  unfold tab_first in Ht. destruct (first_tab line) as [[|j]|]; congruence.
Qed.

Lemma file_lines_short n :
  forall content,
    (String.length content <= n)%nat ->
    Forall (fun l => (String.length l <= String.length content)%nat)
           (file_lines content).
Proof.
  induction n as [|n IH]; intros [|c r] Hn;
    try (rewrite file_lines_equation_1; constructor); [simpl in Hn; lia|].
  rewrite file_lines_equation_2.
  remember (String c r) as s eqn:Es.
  assert (Hne : s <> "") by (subst; discriminate).
  destruct (getline_lengths s Hne) as [Hl1 Hl2].
  assert (Ls : (String.length s <= S n)%nat) by (subst; exact Hn).
  constructor; [lia|].
  eapply Forall_impl; [|apply IH; lia].
  cbv beta. intros l Hl. lia.
Qed.

Lemma read_loop_lines full n :
  forall content,
    (String.length content <= n)%nat ->
    read_loop full content = run_lines full (file_lines content).
Proof.
  induction n as [|n IH]; intros [|c r] Hn;
    try reflexivity; [simpl in Hn; lia|].
  rewrite file_lines_equation_2, read_loop_equation_2.
  remember (String c r) as s eqn:Es.
  assert (Hne : s <> "") by (subst; discriminate).
  destruct (getline_lengths s Hne) as [Hl1 Hl2].
  assert (Ls : (String.length s <= S n)%nat) by (subst; exact Hn).
  cbn [run_lines]. rewrite IH by lia. reflexivity.
Qed.

Lemma run_lines_outputs full ls :
  Forall (fun l => size l < npos /\ tab_first l = false) ls ->
  run_lines full ls = Ok (outputs full ls).
Proof.
  induction 1 as [|l ls [Hs Ht] _ IH]; [reflexivity|].
  cbn [run_lines outputs fold_right].
  rewrite (line_body_output l full Hs Ht). cbn [bind].
  rewrite IH. reflexivity.
Qed.

Lemma run_lines_fault full ls :
  Forall (fun l => size l < npos) ls ->
  Exists (fun l => tab_first l = true) ls ->
  run_lines full ls = Fault OutOfBounds.
Proof.
  induction 1 as [|l ls Hs _ IH]; intros E; [inversion E|].
  cbn [run_lines].
  destruct (tab_first l) eqn:Ht.
  - now rewrite (line_body_tab_first l full Hs Ht).
  - rewrite (line_body_output l full Hs Ht). cbn [bind].
    rewrite IH; [reflexivity|].
    inversion E; subst; [congruence | assumption].
Qed.

Lemma file_lines_sizes content :
  size content < npos ->
  Forall (fun l => size l < npos) (file_lines content).
Proof.
  intros Hs.
  eapply Forall_impl; [|apply (file_lines_short _ content (le_n _))].
  cbv beta. unfold size in *. intros l Hl. lia.
Qed.

(** X7: once the file is open the program tolerates every line, well
    formed or not, and ends with code 0 and nothing on the error stream,
    as long as no line starts with a tab; standard output is then the
    outputs of the lines in order.  A line that starts with a tab makes
    the run undefined, in both modes. *)
Theorem file_outcome (fs : filesystem) (filename content : string)
    (full_output : bool) :
  fs filename = Some content ->
  size content < npos ->
  (Forall (fun l => tab_first l = false) (file_lines content) ->
   process_objdump_file fs filename full_output =
   Ok (mkRun (outputs full_output (file_lines content)) "" 0)) /\
  (Exists (fun l => tab_first l = true) (file_lines content) ->
   process_objdump_file fs filename full_output = Fault OutOfBounds).
Proof.
  intros Hf Hs. unfold process_objdump_file. rewrite Hf.
  rewrite (read_loop_lines full_output _ content (le_n _)).
  pose proof (file_lines_sizes content Hs) as Hz.
  split; intros H.
  - rewrite run_lines_outputs; [reflexivity|].
    apply Forall_forall. intros l Hl. split.
    + exact (proj1 (Forall_forall _ _) Hz l Hl).
    + exact (proj1 (Forall_forall _ _) H l Hl).
  - now rewrite run_lines_fault.
Qed.

Lemma file_outcome_witness :
  process_objdump_file
    (fun _ => Some ("no colon" ++ tab ++ "zz" ++ nl ++ ":" ++ tab ++ "xyz!")) "f" false =
  Ok (mkRun ("00000000 0000" ++ blank4 ++ " " ++ blank8 ++ " " ++ blank8 ++ " " ++
             blank8 ++ " " ++ blank8 ++ " " ++ blank8 ++ " " ++ nl) "" 0) /\
  process_objdump_file (fun _ => Some ("a" ++ nl ++ tab ++ "b" ++ nl)) "f" true =
  Fault OutOfBounds.
Proof.
  split.
  - apply (proj1 (file_outcome
                    (fun _ => Some ("no colon" ++ tab ++ "zz" ++ nl ++ ":" ++ tab ++ "xyz!"))
                    "f" _ false eq_refl eq_refl)).
    vm_compute. repeat constructor.
  - apply (proj2 (file_outcome (fun _ => Some ("a" ++ nl ++ tab ++ "b" ++ nl))
                    "f" _ true eq_refl eq_refl)).
    vm_compute. apply Exists_cons_tl, Exists_cons_hd. reflexivity.
Defined.

Lemma line_output_binary_length l :
  String.length (line_output false l) =
  if instruction_line l then 64%nat else 0%nat.
Proof.
  unfold line_output. destruct (instruction_line l) eqn:Hi; [|reflexivity].
  destruct (instruction_line_first_tab l Hi) as [j [Hk _]]. rewrite Hk.
  cbn [append]. rewrite length_app, transcode_length. reflexivity.
Qed.

Lemma outputs_binary_length ls :
  String.length (outputs false ls) =
  (64 * List.length (filter instruction_line ls))%nat.
Proof.
  induction ls as [|l ls IH]; [reflexivity|].
  cbn [outputs fold_right filter]. fold (outputs false ls).
  rewrite length_app, line_output_binary_length, IH.
  destruct (instruction_line l); cbn [List.length]; lia.
Qed.

(** X8: in binary-only mode standard output holds one row of 64
    characters for each instruction line of the file and nothing for the
    other lines. *)
Theorem binary_only_rows (fs : filesystem) (filename content : string) :
  fs filename = Some content ->
  size content < npos ->
  Forall (fun l => tab_first l = false) (file_lines content) ->
  exists out,
    process_objdump_file fs filename false = Ok (mkRun out "" 0) /\
    String.length out =
    (64 * List.length (filter instruction_line (file_lines content)))%nat.
Proof.
  intros Hf Hs H.
  exists (outputs false (file_lines content)). split.
  - unfold process_objdump_file. rewrite Hf.
    rewrite (read_loop_lines false _ content (le_n _)).
    rewrite run_lines_outputs; [reflexivity|].
    pose proof (file_lines_sizes content Hs) as Hz.
    apply Forall_forall. intros l Hl. split.
    + exact (proj1 (Forall_forall _ _) Hz l Hl).
    + exact (proj1 (Forall_forall _ _) H l Hl).
  - apply outputs_binary_length.
Qed.

Lemma binary_only_rows_witness :
  exists out,
    process_objdump_file
      (fun _ => Some ("start:" ++ nl ++ "0:" ++ tab ++ "c3" ++ nl ++ nl ++
                      "1:" ++ tab ++ "90 " ++ tab ++ "nop")) "f" false =
    Ok (mkRun out "" 0) /\
    String.length out = 128%nat.
Proof.
  apply (binary_only_rows
           (fun _ => Some ("start:" ++ nl ++ "0:" ++ tab ++ "c3" ++ nl ++ nl ++
                           "1:" ++ tab ++ "90 " ++ tab ++ "nop")) "f" _ eq_refl eq_refl).
  vm_compute. repeat constructor.
Defined.

Lemma getline_app s t :
  first_index NL s <> None ->
  getline (s ++ t) = (fst (getline s), snd (getline s) ++ t).
Proof.
  induction s as [|c r IH]; simpl; [congruence|]. intros H.
  destruct (Ascii.eqb c NL); [reflexivity|].
  rewrite IH.
  - now destruct (getline r).
  - destruct (first_index NL r); [discriminate | exact H].
Qed.

Lemma complete_has_newline s :
  s <> "" -> complete s = true -> first_index NL s <> None.
Proof.
  intros Hne Hc F. rewrite (incomplete_without_newline s Hne F) in Hc.
  discriminate.
Qed.

Lemma file_lines_app n :
  forall c1 c2,
    (String.length c1 <= n)%nat ->
    complete c1 = true ->
    file_lines (c1 ++ c2) = (file_lines c1 ++ file_lines c2)%list.
Proof.
  induction n as [|n IH]; intros [|c r] c2 Hn Hc;
    try reflexivity; [simpl in Hn; lia|].
  change (String c r ++ c2) with (String c (r ++ c2)).
  rewrite !file_lines_equation_2.
  change (String c (r ++ c2)) with (String c r ++ c2).
  remember (String c r) as s eqn:Es.
  assert (Hne : s <> "") by (subst; discriminate).
  assert (Ls : (String.length s <= S n)%nat) by (subst; exact Hn).
  pose proof (complete_has_newline s Hne Hc) as N.
  destruct (getline_lengths s Hne) as [_ Hl2].
  rewrite (getline_app s c2 N). cbn [fst snd].
  rewrite IH; [reflexivity | lia |].
  destruct (getline_split s) as [E|(_ & _ & F)]; [|contradiction].
  now rewrite <- (complete_after_newline_at s _ _ E).
Qed.

Lemma run_lines_app full a b :
  run_lines full (a ++ b)%list =
  (r1 <- run_lines full a ;; r2 <- run_lines full b ;; Ok (r1 ++ r2)).
Proof.
  induction a as [|l a IH]; cbn [List.app run_lines bind].
  - destruct (run_lines full b); reflexivity.
  - destruct (line_body full l) as [o|f]; cbn [bind]; [|reflexivity].
    rewrite IH.
    destruct (run_lines full a) as [ra|f]; cbn [bind]; [|reflexivity].
    destruct (run_lines full b) as [rb|f]; cbn [bind]; [|reflexivity].
    now rewrite app_assoc.
Qed.

(** X9: the program keeps nothing from one line to the next: when a file
    is empty or ends with a newline, processing it followed by a second
    file gives the output of the first followed by the output of the
    second, in either mode. *)
Theorem concatenated_files (fs : filesystem) (f1 f2 f12 c1 c2 : string)
    (full_output : bool) :
  fs f1 = Some c1 ->
  fs f2 = Some c2 ->
  fs f12 = Some (c1 ++ c2) ->
  complete c1 = true ->
  process_objdump_file fs f12 full_output =
  (r1 <- process_objdump_file fs f1 full_output ;;
   r2 <- process_objdump_file fs f2 full_output ;;
   Ok (mkRun (stdout r1 ++ stdout r2) "" 0)).
Proof.
  intros H1 H2 H12 Hc. unfold process_objdump_file.
  rewrite H1, H2, H12.
  rewrite !(read_loop_lines full_output _ _ (le_n _)).
  rewrite (file_lines_app _ c1 c2 (le_n _) Hc), run_lines_app.
  destruct (run_lines full_output (file_lines c1)); cbn [bind]; [|reflexivity].
  destruct (run_lines full_output (file_lines c2)); reflexivity.
Qed.

Lemma concatenated_files_witness :
  process_objdump_file
    (fun f => if String.eqb f "a" then Some ("x:" ++ nl)
              else if String.eqb f "b" then Some ("0:" ++ tab ++ "c3")
              else Some (("x:" ++ nl) ++ "0:" ++ tab ++ "c3"))
    "ab" true =
  Ok (mkRun (("x:" ++ nl) ++ "0:" ++ tab ++ transcode "c3" ++ "3" ++ nl) "" 0).
Proof.
  rewrite (concatenated_files
             (fun f => if String.eqb f "a" then Some ("x:" ++ nl)
                       else if String.eqb f "b" then Some ("0:" ++ tab ++ "c3")
                       else Some (("x:" ++ nl) ++ "0:" ++ tab ++ "c3"))
             "a" "b" "ab" ("x:" ++ nl) ("0:" ++ tab ++ "c3") true
             eq_refl eq_refl eq_refl eq_refl).
  reflexivity.
Defined.

(** ** More on the command line *)

(** X10: a single argument other than -b is the file, processed in
    full-output mode; after -b the next argument is the file, processed
    in binary-only mode, and any argument after it is ignored, while
    without -b a second argument is refused. *)
Theorem main_dispatch (fs : filesystem) (prog file : string) :
  (file <> "-b" ->
   main fs [prog; file] = process_objdump_file fs file true /\
   forall extra more,
     main fs (prog :: file :: extra :: more) =
     Ok (usage ("Unknown option: " ++ file))) /\
  (forall more,
      main fs (prog :: "-b" :: file :: more) =
      process_objdump_file fs file false).
Proof.
  split.
  - intros N. split.
    + unfold main. cbv zeta. cbn [List.length nth].
      destruct (String.eqb_spec file "-b"); [contradiction | reflexivity].
    + intros extra more. unfold main. cbv zeta. cbn [List.length nth].
      destruct (Z.ltb_spec (Z.of_nat (S (S (S (List.length more))))) 2); [lia|].
      destruct (String.eqb_spec file "-b"); [contradiction|].
      destruct (Z.ltb_spec 2 (Z.of_nat (S (S (S (List.length more)))))); [|lia].
      reflexivity.
  - intros more. unfold main. cbv zeta. cbn [List.length nth].
    destruct (Z.ltb_spec (Z.of_nat (S (S (S (List.length more))))) 2); [lia|].
    change (String.eqb "-b" "-b") with true. cbn [negb andb].
    destruct (Z.ltb_spec 2 (Z.of_nat (S (S (S (List.length more)))))); [|lia].
    reflexivity.
Qed.

Lemma main_dispatch_witness :
  main (fun _ => Some "") ["prog"; "dump.txt"] =
  process_objdump_file (fun _ => Some "") "dump.txt" true.
Proof.
  apply (proj1 (main_dispatch (fun _ => Some "") "prog" "dump.txt")).
  discriminate.
Defined.

Lemma process_result fs filename full r :
  process_objdump_file fs filename full = Ok r ->
  (exit_code r = 0 /\ stderr r = "" /\ fs filename <> None) \/
  (exit_code r = 1 /\ stdout r = "" /\ fs filename = None /\
   stderr r = "Failed to open " ++ filename ++ " for input." ++ nl).
Proof.
  unfold process_objdump_file. destruct (fs filename) as [fin|].
  - destruct (read_loop full fin); cbn [bind]; [|discriminate].
    intros H. injection H as <-. left. repeat split. discriminate.
  - intros H. injection H as <-. right. repeat split.
Qed.

Lemma usage_result msg :
  (exit_code (usage msg) = 0 \/ exit_code (usage msg) = 1) /\
  stderr (usage msg) = "".
Proof.
  unfold usage. cbn [exit_code stderr].
  destruct (String.eqb msg ""); auto.
Qed.

(** X11: whenever the program ends, its exit code is 0 or 1, and it has
    written on the error stream only if an argument names a file that
    could not be opened; the message then names that file, nothing went
    to standard output and the exit code is 1. *)
Theorem main_streams (fs : filesystem) (argv : list string) (r : run) :
  main fs argv = Ok r ->
  (exit_code r = 0 \/ exit_code r = 1) /\
  (stderr r <> "" ->
   exists filename,
     In filename argv /\ fs filename = None /\
     stderr r = "Failed to open " ++ filename ++ " for input." ++ nl /\
     stdout r = "" /\ exit_code r = 1).
Proof.
  assert (U : forall msg, Ok (usage msg) = Ok r ->
              (exit_code r = 0 \/ exit_code r = 1) /\
              (stderr r <> "" ->
               exists filename,
                 In filename argv /\ fs filename = None /\
                 stderr r = "Failed to open " ++ filename ++ " for input." ++ nl /\
                 stdout r = "" /\ exit_code r = 1)).
  { intros msg H. injection H as <-.
    destruct (usage_result msg) as [C E]. split; [exact C|].
    intros N. contradiction. }
  unfold main. cbv zeta.
  destruct (Z.ltb_spec (Z.of_nat (List.length argv)) 2) as [|Hargc];
    [apply U|].
  destruct (negb (String.eqb (nth 1 argv "") "-b") &&
            (2 <? Z.of_nat (List.length argv))); [apply U|].
  destruct (Z.ltb_spec (if String.eqb (nth 1 argv "") "-b" then 2 else 1)
                       (Z.of_nat (List.length argv))) as [Hi|]; [|apply U].
  intros H.
  destruct (process_result _ _ _ _ H) as [(C & E & _)|(C & O & F & E)].
  - split; [now left|]. intros N. contradiction.
  - split; [now right|]. intros _.
    eexists. split; [|repeat split; eassumption].
    apply nth_In.
    destruct (String.eqb (nth 1 argv "") "-b"); lia.
Qed.

Lemma main_streams_witness :
  exit_code (mkRun "" ("Failed to open gone.txt for input." ++ nl) 1) = 0 \/
  exit_code (mkRun "" ("Failed to open gone.txt for input." ++ nl) 1) = 1.
Proof.
  apply (proj1 (main_streams (fun _ => None) ["prog"; "-b"; "gone.txt"]
                  (mkRun "" ("Failed to open gone.txt for input." ++ nl) 1)
                  eq_refl)).
Defined.
